(** * Mergington High School activities API: model of [src/app.py]

    The FastAPI application keeps two process-wide dictionaries,
    [active_sessions] (session id -> teacher username) and [activities]
    (activity name -> activity record), and exposes six request handlers
    over them.  The handlers are embedded below as computations in a small
    state-and-exception monad: the state is the pair of dictionaries, an
    exception is what Python raises ([HTTPException] above all). *)

From Stdlib Require Import ZArith NArith Ascii String.
From stdpp Require Import gmap strings list fin_maps.

Local Open Scope string_scope.
Local Open Scope list_scope.

(** ** Python values that reach a response body

    [is_teacher_authenticated] returns the value of
    [session_id and session_id in active_sessions], which in Python is not
    always a [bool]: [x and y] evaluates to [x] itself when [x] is falsy. *)

Inductive pyval : Type :=
  | PyNone
  | PyBool (b : bool)
  | PyStr (s : string).

(** Python's truth value of the three kinds of value used here. *)
Definition truthy (v : pyval) : bool :=
  match v with
  | PyNone => false
  | PyBool b => b
  | PyStr s => match s with EmptyString => false | String _ _ => true end
  end.

(** [x and y]: [y] is only evaluated when [x] is truthy. *)
Definition py_and (x : pyval) (y : unit -> pyval) : pyval :=
  if truthy x then y tt else x.

(** What [dict.get] gives for a string-valued dictionary. *)
Definition of_option (o : option string) : pyval :=
  match o with
  | None => PyNone
  | Some s => PyStr s
  end.

(** ** Data model *)

(** One record of [teachers.json]. *)
Record Teacher : Type := mkTeacher {
  teacher_username : string;
  teacher_password : string
}.

(** One value of the [activities] dictionary. *)
Record Activity : Type := mkActivity {
  description : string;
  schedule : string;
  max_participants : Z;
  participants : list string
}.

(** The two module-level dictionaries. *)
Record State : Type := mkState {
  active_sessions : gmap string string;
  activities : gmap string Activity
}.

(** The part of a request the handlers read: its cookies. *)
Record Request : Type := mkRequest {
  cookies : gmap string string
}.

(** What the handlers cannot decide themselves: the content of
    [teachers.json] ([None] when the file does not exist) . *)
Record Env : Type := mkEnv {
  teachers_json : option (list Teacher)
}.

(** The JSON bodies the handlers return. *)
Inductive Body : Type :=
  | MessageBody (message : string)
  | AuthBody (message : string) (authenticated : bool)
  | StatusBody (authenticated : pyval) (username : pyval)
  | ActivitiesBody (acts : gmap string Activity).

(** What a handler did to the session cookie of the response. *)
Inductive CookieEffect : Type :=
  | NoCookieChange
  | SetCookie (key value : string)
  | DeleteCookie (key : string).

Record Reply : Type := mkReply {
  body : Body;
  cookie_effect : CookieEffect
}.

(** ** The state-and-exception monad *)

Inductive exn : Type :=
  | HTTPException (status_code : Z) (detail : string)
  | ValueError.

Inductive result (A : Type) : Type :=
  | Val (a : A)
  | Exc (e : exn).
Arguments Val {A} a.
Arguments Exc {A} e.

Definition M (A : Type) : Type := State -> State * result A.

Definition ret {A} (a : A) : M A := fun st => (st, Val a).

Definition bind {A B} (m : M A) (k : A -> M B) : M B :=
  fun st =>
    match m st with
    | (st', Val a) => k a st'
    | (st', Exc e) => (st', Exc e)
    end.

Definition raise {A} (e : exn) : M A := fun st => (st, Exc e).

Definition gets {A} (f : State -> A) : M A := fun st => (st, Val (f st)).

Definition modify (f : State -> State) : M unit := fun st => (f st, Val tt).

Declare Scope handler_scope.
Delimit Scope handler_scope with handler.
Notation "'let*' x ':=' m 'in' k" := (bind m (fun x => k))
  (at level 10, x binder, m at level 100, k at level 200) : handler_scope.
Notation "m1 ';;' m2" := (bind m1 (fun _ => m2))
  (at level 100, m2 at level 200, right associativity) : handler_scope.
Local Open Scope handler_scope.

(** The state after a handler ran, and what it returned or raised. *)
Definition state_after {A} (r : State * result A) : State := fst r.
Definition outcome {A} (r : State * result A) : result A := snd r.

(** ** The seeded data (lines 36-91) *)

Definition seed_activities : gmap string Activity :=
  list_to_map
    [ ("Chess Club",
       mkActivity "Learn strategies and compete in chess tournaments"
         "Fridays, 3:30 PM - 5:00 PM" 12
         ["michael@mergington.edu"; "daniel@mergington.edu"]);
      ("Programming Class",
       mkActivity "Learn programming fundamentals and build software projects"
         "Tuesdays and Thursdays, 3:30 PM - 4:30 PM" 20
         ["emma@mergington.edu"; "sophia@mergington.edu"]);
      ("Gym Class",
       mkActivity "Physical education and sports activities"
         "Mondays, Wednesdays, Fridays, 2:00 PM - 3:00 PM" 30
         ["john@mergington.edu"; "olivia@mergington.edu"]);
      ("Soccer Team",
       mkActivity "Join the school soccer team and compete in matches"
         "Tuesdays and Thursdays, 4:00 PM - 5:30 PM" 22
         ["liam@mergington.edu"; "noah@mergington.edu"]);
      ("Basketball Team",
       mkActivity "Practice and play basketball with the school team"
         "Wednesdays and Fridays, 3:30 PM - 5:00 PM" 15
         ["ava@mergington.edu"; "mia@mergington.edu"]);
      ("Art Club",
       mkActivity "Explore your creativity through painting and drawing"
         "Thursdays, 3:30 PM - 5:00 PM" 15
         ["amelia@mergington.edu"; "harper@mergington.edu"]);
      ("Drama Club",
       mkActivity "Act, direct, and produce plays and performances"
         "Mondays and Wednesdays, 4:00 PM - 5:30 PM" 20
         ["ella@mergington.edu"; "scarlett@mergington.edu"]);
      ("Math Club",
       mkActivity "Solve challenging problems and participate in math competitions"
         "Tuesdays, 3:30 PM - 4:30 PM" 10
         ["james@mergington.edu"; "benjamin@mergington.edu"]);
      ("Debate Team",
       mkActivity "Develop public speaking and argumentation skills"
         "Fridays, 4:00 PM - 5:30 PM" 12
         ["charlotte@mergington.edu"; "henry@mergington.edu"]) ].

(** The state when the module has been imported: no session, the seed. *)
Definition initial_state : State := mkState ∅ seed_activities.

(** ** [uuid.uuid4] and [str] of a UUID

    [uuid4()] is [UUID(bytes=os.urandom(16), version=4)]: the 128 random
    bits get the RFC 4122 variant and the version number 4, and [str] prints
    them as 32 hexadecimal digits in groups of 8-4-4-4-12.  The random bits
    are an input of the model. *)

Definition hex_char (d : N) : ascii :=
  match d with
  | 0%N => "0" | 1%N => "1" | 2%N => "2" | 3%N => "3"
  | 4%N => "4" | 5%N => "5" | 6%N => "6" | 7%N => "7"
  | 8%N => "8" | 9%N => "9" | 10%N => "a" | 11%N => "b"
  | 12%N => "c" | 13%N => "d" | 14%N => "e" | _ => "f"
  end%char.

(** ['%0nx' % v], most significant digit first, for [v < 16 ^ n]. *)
Fixpoint hex_digits (n : nat) (v : N) : string :=
  match n with
  | O => EmptyString
  | S n' => String (hex_char ((v / 16 ^ N.of_nat n') mod 16)) (hex_digits n' v)
  end.

Definition uuid4 (urandom : N) : N :=
  let int := (urandom mod 2 ^ 128)%N in
  let int := N.ldiff int (N.shiftl 0xc000 48) in
  let int := N.lor int (N.shiftl 0x8000 48) in
  let int := N.ldiff int (N.shiftl 0xf000 64) in
  N.lor int (N.shiftl 4 76).

Definition str_uuid (int : N) : string :=
  let hex := hex_digits 32 int in
  substring 0 8 hex +:+ "-" +:+ substring 8 4 hex +:+ "-" +:+ substring 12 4 hex
    +:+ "-" +:+ substring 16 4 hex +:+ "-" +:+ substring 20 12 hex.

(** ** Helpers of the handlers *)

(** [load_teachers] (lines 28-33): the list of the file, [[]] without it. *)
Definition load_teachers (env : Env) : list Teacher :=
  match teachers_json env with
  | Some teachers => teachers
  | None => []
  end.

(** [key in d] for a dictionary with string keys: no other value is a key. *)
Definition py_in (key : pyval) (d : gmap string string) : bool :=
  match key with
  | PyStr s => bool_decide (s ∈ dom d)
  | _ => false
  end.

(** [is_teacher_authenticated] (lines 94-97). *)
Definition is_teacher_authenticated (request : Request) : M pyval :=
  let session_id := of_option (cookies request !! "session_id") in
  let* sessions := gets active_sessions in
  ret (py_and session_id (fun _ => PyBool (py_in session_id sessions))).

(** The loop of [authenticate_teacher] (lines 102-105). *)
Fixpoint authenticate_loop (teachers : list Teacher) (username password : string)
  : bool :=
  match teachers with
  | [] => false
  | teacher :: rest =>
      if bool_decide (teacher_username teacher = username)
         && bool_decide (teacher_password teacher = password)
      then true
      else authenticate_loop rest username password
  end.

(** [authenticate_teacher] (lines 99-105). *)
Definition authenticate_teacher (env : Env) (username password : string) : bool :=
  let teachers := load_teachers env in
  authenticate_loop teachers username password.

(** [list.remove(x)]: drops the first element equal to [x]; Python raises
    [ValueError] when there is none. *)
Fixpoint list_remove (x : string) (l : list string) : option (list string) :=
  match l with
  | [] => None
  | y :: l' =>
      if bool_decide (y = x) then Some l'
      else match list_remove x l' with
           | Some r => Some (y :: r)
           | None => None
           end
  end.

(** Writing the participants of one activity: the activity dictionary is
    shared with [activities], so a change of its list is a change of the
    entry of [activities]. *)
Definition with_participants (a : Activity) (ps : list string) : Activity :=
  mkActivity (description a) (schedule a) (max_participants a) ps.

Definition set_participants (activity_name : string) (a : Activity)
    (ps : list string) (st : State) : State :=
  mkState (active_sessions st)
          (<[activity_name := with_participants a ps]> (activities st)).

(** ** The request handlers *)

(** [login] (lines 111-123); [urandom] is what [os.urandom(16)] gives to
    [uuid.uuid4]. *)
Definition login (env : Env) (urandom : N) (username password : string)
  : M Reply :=
  if authenticate_teacher env username password then
    let session_id := str_uuid (uuid4 urandom) in
    modify (fun st =>
      mkState (<[session_id := username]> (active_sessions st)) (activities st));;
    ret (mkReply (AuthBody "Login successful" true)
                 (SetCookie "session_id" session_id))
  else
    raise (HTTPException 401 "Invalid credentials").

(** [logout] (lines 125-133). *)
Definition logout (request : Request) : M Reply :=
  let session_id := of_option (cookies request !! "session_id") in
  let* sessions := gets active_sessions in
  (if truthy (py_and session_id (fun _ => PyBool (py_in session_id sessions)))
   then
     match session_id with
     | PyStr s =>
         modify (fun st =>
           mkState (delete s (active_sessions st)) (activities st))
     | _ => ret tt
     end
   else ret tt);;
  ret (mkReply (AuthBody "Logged out successfully" false)
               (DeleteCookie "session_id")).

(** [auth_status] (lines 135-144). *)
Definition auth_status (request : Request) : M Reply :=
  let* authenticated := is_teacher_authenticated request in
  let* username :=
    (if truthy authenticated then
       let session_id := cookies request !! "session_id" in
       let* sessions := gets active_sessions in
       ret (match session_id with
            | Some s => of_option (sessions !! s)
            | None => PyNone
            end)
     else ret PyNone) in
  ret (mkReply (StatusBody authenticated username) NoCookieChange).

(** [get_activities] (lines 147-149). *)
Definition get_activities : M Reply :=
  let* acts := gets activities in
  ret (mkReply (ActivitiesBody acts) NoCookieChange).

(** [signup_for_activity] (lines 152-175). *)
Definition signup_for_activity (request : Request) (activity_name email : string)
  : M Reply :=
  let* authenticated := is_teacher_authenticated request in
  if negb (truthy authenticated) then
    raise (HTTPException 401 "Teacher authentication required")
  else
    let* acts := gets activities in
    match acts !! activity_name with
    | None => raise (HTTPException 404 "Activity not found")
    | Some activity =>
        if bool_decide (email ∈ participants activity) then
          raise (HTTPException 400 "Student is already signed up")
        else
          modify (set_participants activity_name activity
                    (participants activity ++ [email]));;
          ret (mkReply
                 (MessageBody ("Signed up " +:+ email +:+ " for " +:+ activity_name))
                 NoCookieChange)
    end.

(** [unregister_from_activity] (lines 178-201). *)
Definition unregister_from_activity (request : Request)
    (activity_name email : string) : M Reply :=
  let* authenticated := is_teacher_authenticated request in
  if negb (truthy authenticated) then
    raise (HTTPException 401 "Teacher authentication required")
  else
    let* acts := gets activities in
    match acts !! activity_name with
    | None => raise (HTTPException 404 "Activity not found")
    | Some activity =>
        if negb (bool_decide (email ∈ participants activity)) then
          raise (HTTPException 400 "Student is not signed up for this activity")
        else
          match list_remove email (participants activity) with
          | None => raise ValueError
          | Some ps =>
              modify (set_participants activity_name activity ps);;
              ret (mkReply
                     (MessageBody
                        ("Unregistered " +:+ email +:+ " from " +:+ activity_name))
                     NoCookieChange)
          end
    end.

(** The six operations of the service as one request type. *)
Inductive Call : Type :=
  | Login (env : Env) (urandom : N) (username password : string)
  | Logout
  | AuthStatus
  | GetActivities
  | Signup (activity_name email : string)
  | Unregister (activity_name email : string).

Definition handle (c : Call) (request : Request) : M Reply :=
  match c with
  | Login env urandom username password => login env urandom username password
  | Logout => logout request
  | AuthStatus => auth_status request
  | GetActivities => get_activities
  | Signup activity_name email => signup_for_activity request activity_name email
  | Unregister activity_name email =>
      unregister_from_activity request activity_name email
  end.

(** The error taxonomy of the specification, as the exceptions of the
    handlers. *)
Definition Unauthorized : exn :=
  HTTPException 401 "Teacher authentication required".
Definition NotFound : exn := HTTPException 404 "Activity not found".
Definition Conflict_signup : exn :=
  HTTPException 400 "Student is already signed up".
Definition Conflict_unregister : exn :=
  HTTPException 400 "Student is not signed up for this activity".
Definition InvalidCredentials : exn := HTTPException 401 "Invalid credentials".

(** A request that carries the session cookie [sid], and one without
    cookies. *)
Definition with_session (sid : string) : Request :=
  mkRequest {["session_id" := sid]}.
Definition no_cookie : Request := mkRequest ∅.

(** The test [is_teacher_authenticated(request)] of the two guarded
    handlers: the truth value of what the helper returns. *)
Definition caller_authenticated (request : Request) (st : State) : bool :=
  match outcome (is_teacher_authenticated request st) with
  | Val v => truthy v
  | Exc _ => false
  end.

(** Every participants list of the state is free of duplicates. *)
Definition no_duplicates (st : State) : Prop :=
  forall name a, activities st !! name = Some a -> NoDup (participants a).

(** ** Relations between states *)

(** The three ways the [activities] dictionary relates to itself across one
    request: untouched, one list extended by a new email, or one list with
    the first occurrence of an email taken out. *)
Inductive roster_change (acts acts' : gmap string Activity) : Prop :=
  | roster_same :
      acts' = acts -> roster_change acts acts'
  | roster_appended (name email : string) (a : Activity) :
      acts !! name = Some a ->
      email ∉ participants a ->
      acts' = <[name := with_participants a (participants a ++ [email])]> acts ->
      roster_change acts acts'
  | roster_removed (name email : string) (a : Activity) (ps : list string) :
      acts !! name = Some a ->
      list_remove email (participants a) = Some ps ->
      acts' = <[name := with_participants a ps]> acts ->
      roster_change acts acts'.

(** The states of a run: the state at import, and what any request makes of
    a state of a run. *)
Inductive reachable : State -> Prop :=
  | reachable_initial : reachable initial_state
  | reachable_step (c : Call) (request : Request) (st : State) :
      reachable st -> reachable (state_after (handle c request st)).

(** The server handles the requests it receives one after the other: the
    state after a sequence of requests, each with the operation it asks for. *)
Fixpoint run (requests : list (Call * Request)) (st : State) : State :=
  match requests with
  | [] => st
  | (c, request) :: rest => run rest (state_after (handle c request st))
  end.

(** The requests of a client that signs up the given emails, in order, for
    one activity. *)
Definition signups (request : Request) (activity_name : string)
    (emails : list string) : list (Call * Request) :=
  map (fun email => (Signup activity_name email, request)) emails.

(** The capacity reading of [max_participants]: no list is longer than it. *)
Definition within_capacity (st : State) : Prop :=
  forall name a, activities st !! name = Some a ->
    (Z.of_nat (length (participants a)) <= max_participants a)%Z.

(** The activity a request works on, for the two handlers that take one. *)
Definition on_activity (c : Call) : option string :=
  match c with
  | Signup activity_name _ | Unregister activity_name _ => Some activity_name
  | _ => None
  end.

(** ** Concrete states and requests used in the examples *)

(** One session of the teacher of the specification's scenario over the
    seeded activities, with a token as [login] makes them. *)
Definition demo_token : string := str_uuid (uuid4 2026).
Definition demo_state : State :=
  mkState {[demo_token := "mrodriguez"]} seed_activities.
Definition chess_club : Activity :=
  mkActivity "Learn strategies and compete in chess tournaments"
    "Fridays, 3:30 PM - 5:00 PM" 12
    ["michael@mergington.edu"; "daniel@mergington.edu"].

(** A state whose only activity is full: two seats, two participants. *)
Definition duo : Activity :=
  mkActivity "Piano four hands" "Mondays" 2 ["ann@mergington.edu"; "bob@mergington.edu"].

(** The teachers of the examples, and a deployment without
    [teachers.json]. *)
Definition mergington_teachers : Env :=
  mkEnv (Some [mkTeacher "mrodriguez" "pass123"; mkTeacher "jchen" "maths4all"]).
Definition no_teachers_file : Env := mkEnv None.

(** A state that no run of the service produces: the empty string is a key
    of the session store. *)
Definition ghost_state : State := mkState {["" := "ghost"]} seed_activities.

(** Closes a decidable proposition about concrete data by evaluation. *)
Ltac decide_by_computation :=
  lazymatch goal with
  | |- ?P => apply (bool_decide_eq_true_1 P); vm_compute; reflexivity
  end.

(** ** Facts about the helpers *)

Section Helpers.

Implicit Types (st : State) (request : Request) (l : list string).

Lemma is_teacher_authenticated_run request st :
  is_teacher_authenticated request st =
    (st, Val (py_and (of_option (cookies request !! "session_id"))
                (fun _ => PyBool (py_in (of_option (cookies request !! "session_id"))
                                    (active_sessions st))))).
Proof. reflexivity. Qed.

(** The helper is truthy exactly for a non-empty cookie that is a key of
    the session store. *)
Lemma caller_authenticated_iff request st :
  caller_authenticated request st = true <->
  exists sid, cookies request !! "session_id" = Some sid
              /\ sid <> "" /\ sid ∈ dom (active_sessions st).
Proof.
  unfold caller_authenticated. rewrite is_teacher_authenticated_run. cbn.
  destruct (cookies request !! "session_id") as [sid|] eqn:Hc; cbn.
  - destruct sid as [|c sid]; cbn.
    + split; [discriminate|]. intros (s & Hs & Hne & _). congruence.
    + rewrite bool_decide_eq_true. split.
      * intros Hin. exists (String c sid). repeat split; [discriminate|done].
      * intros (s & Hs & _ & Hin). congruence.
  - split; [discriminate|]. intros (s & Hs & _). discriminate.
Qed.

Lemma caller_authenticated_sessions request st st' :
  active_sessions st' = active_sessions st ->
  caller_authenticated request st' = caller_authenticated request st.
Proof.
  intros Heq. unfold caller_authenticated.
  rewrite !is_teacher_authenticated_run, Heq. reflexivity.
Qed.

Lemma list_remove_None x l : list_remove x l = None <-> x ∉ l.
Proof.
  induction l as [|y l IH]; cbn.
  - split; [intros _; apply not_elem_of_nil | done].
  - case_bool_decide as Hy.
    + subst y. split; [discriminate|]. intros Hn. exfalso. apply Hn. left.
    + destruct (list_remove x l) as [r|].
      * split; [discriminate|]. intros Hn. exfalso.
        assert (x ∉ l) as Hl by (intros Hin; apply Hn; by right).
        apply IH in Hl. discriminate.
      * split; [|done]. intros _ Hin. apply elem_of_cons in Hin.
        destruct Hin as [->|Hin]; [done|]. by apply (proj1 IH).
Qed.

(** [list.remove] takes out the first occurrence. *)
Lemma list_remove_first x l1 l2 :
  x ∉ l1 -> list_remove x (l1 ++ x :: l2) = Some (l1 ++ l2).
Proof.
  induction l1 as [|y l1 IH]; cbn; intros Hn.
  - by rewrite bool_decide_eq_true_2.
  - apply not_elem_of_cons in Hn as [Hne Hn].
    rewrite bool_decide_eq_false_2 by congruence.
    by rewrite IH.
Qed.

Lemma list_remove_Some x l r :
  list_remove x l = Some r ->
  exists l1 l2, l = l1 ++ x :: l2 /\ (x ∉ l1) /\ r = l1 ++ l2.
Proof.
  revert r. induction l as [|y l IH]; cbn; intros r Hr; [discriminate|].
  case_bool_decide as Hy.
  - subst y. injection Hr as <-. exists [], l. repeat split. apply not_elem_of_nil.
  - destruct (list_remove x l) as [r'|] eqn:Hl; [|discriminate].
    injection Hr as <-. destruct (IH r' eq_refl) as (l1 & l2 & -> & Hn & ->).
    exists (y :: l1), l2. repeat split.
    apply not_elem_of_cons. split; [congruence|done].
Qed.

Lemma list_remove_elem_of x l :
  x ∈ l -> exists l1 l2, l = l1 ++ x :: l2 /\ (x ∉ l1)
                         /\ list_remove x l = Some (l1 ++ l2).
Proof.
  intros Hin. destruct (list_remove x l) as [r|] eqn:Hr.
  - destruct (list_remove_Some _ _ _ Hr) as (l1 & l2 & -> & Hn & ->).
    by exists l1, l2.
  - apply list_remove_None in Hr. done.
Qed.

Lemma list_remove_snoc x l : x ∉ l -> list_remove x (l ++ [x]) = Some l.
Proof.
  intros Hn. rewrite (list_remove_first x l [] Hn). by rewrite app_nil_r.
Qed.

Lemma list_remove_NoDup x l r :
  NoDup l -> list_remove x l = Some r -> NoDup r /\ x ∉ r.
Proof.
  intros Hnd Hr. destruct (list_remove_Some _ _ _ Hr) as (l1 & l2 & -> & Hn & ->).
  apply NoDup_app in Hnd as (H1 & H12 & H2).
  apply NoDup_cons in H2 as [Hx2 H2]. split.
  - apply NoDup_app. repeat split; [done| |done].
    intros y Hy1 Hy2. apply (H12 y Hy1). by right.
  - intros Hin. apply elem_of_app in Hin as [Hin|Hin]; done.
Qed.

(** Writing a list and then the old list back restores the state. *)
Lemma set_participants_undo name a ps st :
  activities st !! name = Some a ->
  set_participants name (with_participants a ps) (participants a)
    (set_participants name a ps st) = st.
Proof.
  intros Ha. destruct st as [sessions acts], a as [d s m l].
  unfold set_participants, with_participants. cbn in *. f_equal.
  rewrite insert_insert_eq. by apply insert_id.
Qed.

End Helpers.

(** ** The guarded handlers, case by case *)

Section Roster.

Variables (request : Request) (activity_name email : string).

(** [signup_for_activity] as one decision tree over the state. *)
Lemma signup_run st :
  signup_for_activity request activity_name email st =
    if caller_authenticated request st then
      match activities st !! activity_name with
      | None => (st, Exc NotFound)
      | Some a =>
          if bool_decide (email ∈ participants a) then (st, Exc Conflict_signup)
          else (set_participants activity_name a (participants a ++ [email]) st,
                Val (mkReply
                       (MessageBody
                          ("Signed up " +:+ email +:+ " for " +:+ activity_name))
                       NoCookieChange))
      end
    else (st, Exc Unauthorized).
Proof.
  unfold signup_for_activity, caller_authenticated, bind.
  rewrite is_teacher_authenticated_run. cbn [outcome snd].
  destruct (truthy _); cbn; [|done].
  destruct (activities st !! activity_name) as [a|]; [|done].
  by destruct (bool_decide _).
Qed.

(** [unregister_from_activity] likewise; the [ValueError] branch of
    [list.remove] is kept as the code has it. *)
Lemma unregister_run st :
  unregister_from_activity request activity_name email st =
    if caller_authenticated request st then
      match activities st !! activity_name with
      | None => (st, Exc NotFound)
      | Some a =>
          if bool_decide (email ∈ participants a) then
            match list_remove email (participants a) with
            | Some ps =>
                (set_participants activity_name a ps st,
                 Val (mkReply
                        (MessageBody
                           ("Unregistered " +:+ email +:+ " from " +:+ activity_name))
                        NoCookieChange))
            | None => (st, Exc ValueError)
            end
          else (st, Exc Conflict_unregister)
      end
    else (st, Exc Unauthorized).
Proof.
  unfold unregister_from_activity, caller_authenticated, bind.
  rewrite is_teacher_authenticated_run. cbn [outcome snd].
  destruct (truthy _); cbn; [|done].
  destruct (activities st !! activity_name) as [a|]; [|done].
  destruct (bool_decide _); cbn; [|done].
  by destruct (list_remove _ _).
Qed.

End Roster.

(** ** Sign-up *)





(** ** Unregistering *)



(** The [ValueError] of [list.remove] is never raised: the membership test
    before it excludes the case. *)
Lemma unregister_no_ValueError (st : State) (request : Request)
    (activity_name email : string) :
  outcome (unregister_from_activity request activity_name email st)
    <> Exc ValueError.
Proof.
  rewrite unregister_run.
  destruct (caller_authenticated request st); [|discriminate].
  destruct (activities st !! activity_name) as [a|]; [|discriminate].
  case_bool_decide as Hin; [|discriminate].
  destruct (list_remove_elem_of _ _ Hin) as (l1 & l2 & _ & _ & ->).
  discriminate.
Qed.

(** ** Failing requests leave the state alone *)

(** C4: a sign-up or unregister request whose session cookie is missing, or
    is no key of the session store, raises Unauthorized and leaves the whole
    state as it was, whether or not the named activity exists; and whenever
    either handler raises, whatever the exception, the state is unchanged. *)
Theorem errors_leave_state_unchanged (st : State) (request : Request)
    (activity_name email : string) :
  ((cookies request !! "session_id" = None
    \/ exists sid, cookies request !! "session_id" = Some sid
                   /\ (sid ∉ dom (active_sessions st))) ->
   signup_for_activity request activity_name email st = (st, Exc Unauthorized)
   /\ unregister_from_activity request activity_name email st
      = (st, Exc Unauthorized))
  /\ (forall e,
        outcome (signup_for_activity request activity_name email st) = Exc e ->
        state_after (signup_for_activity request activity_name email st) = st)
  /\ (forall e,
        outcome (unregister_from_activity request activity_name email st) = Exc e ->
        state_after (unregister_from_activity request activity_name email st) = st).
Proof.
  rewrite signup_run, unregister_run. split; [|split].
  - intros Hbad.
    assert (caller_authenticated request st = false) as ->; [|done].
    apply not_true_is_false. intros Hauth.
    apply caller_authenticated_iff in Hauth as (sid & Hc & _ & Hin).
    destruct Hbad as [Hnone|(sid' & Hc' & Hout)]; congruence.
  - intros e. destruct (caller_authenticated request st); [|done].
    destruct (activities st !! activity_name) as [a|]; [|done].
    by case_bool_decide.
  - intros e. destruct (caller_authenticated request st); [|done].
    destruct (activities st !! activity_name) as [a|]; [|done].
    case_bool_decide; [|done]. by destruct (list_remove _ _).
Qed.

Lemma errors_leave_state_unchanged_witness :
  (signup_for_activity no_cookie "Chess Club" "new@mergington.edu" demo_state
     = (demo_state, Exc Unauthorized)
   /\ unregister_from_activity no_cookie "Chess Club" "new@mergington.edu"
        demo_state
      = (demo_state, Exc Unauthorized))
  /\ (signup_for_activity (with_session "stale") "Rowing" "new@mergington.edu"
        demo_state
      = (demo_state, Exc Unauthorized)
     /\ unregister_from_activity (with_session "stale") "Rowing"
          "new@mergington.edu" demo_state
        = (demo_state, Exc Unauthorized))
  /\ state_after
       (signup_for_activity (with_session demo_token) "Chess Club"
          "daniel@mergington.edu" demo_state)
     = demo_state
  /\ state_after
       (unregister_from_activity (with_session demo_token) "Rowing"
          "daniel@mergington.edu" demo_state)
     = demo_state.
Proof.
  split; [|split; [|split]].
  - apply (errors_leave_state_unchanged demo_state no_cookie). left. reflexivity.
  - apply (errors_leave_state_unchanged demo_state (with_session "stale")).
    right. exists "stale". split; [reflexivity | decide_by_computation].
  - apply (errors_leave_state_unchanged demo_state (with_session demo_token)
             "Chess Club" "daniel@mergington.edu")
      with (e := Conflict_signup). reflexivity.
  - apply (errors_leave_state_unchanged demo_state (with_session demo_token)
             "Rowing" "daniel@mergington.edu")
      with (e := NotFound). reflexivity.
Defined.

(** ** What a request can do to the roster *)

Lemma signup_roster_change (request : Request) (activity_name email : string)
    (st : State) :
  roster_change (activities st)
    (activities (state_after (signup_for_activity request activity_name email st))).
Proof.
  rewrite signup_run.
  destruct (caller_authenticated request st); [|by apply roster_same].
  destruct (activities st !! activity_name) as [a|] eqn:Ha; [|by apply roster_same].
  case_bool_decide as Hin; [by apply roster_same|].
  by apply (roster_appended _ _ activity_name email a).
Qed.

Lemma unregister_roster_change (request : Request) (activity_name email : string)
    (st : State) :
  roster_change (activities st)
    (activities
       (state_after (unregister_from_activity request activity_name email st))).
Proof.
  rewrite unregister_run.
  destruct (caller_authenticated request st); [|by apply roster_same].
  destruct (activities st !! activity_name) as [a|] eqn:Ha; [|by apply roster_same].
  case_bool_decide as Hin; [|by apply roster_same].
  destruct (list_remove email (participants a)) as [ps|] eqn:Hps;
    [|by apply roster_same].
  by apply (roster_removed _ _ activity_name email a ps).
Qed.

Lemma login_activities (env : Env) (urandom : N) (username password : string)
    (st : State) :
  activities (state_after (login env urandom username password st))
    = activities st.
Proof. unfold login. by destruct (authenticate_teacher _ _ _). Qed.

Lemma logout_activities (request : Request) (st : State) :
  activities (state_after (logout request st)) = activities st.
Proof.
  unfold logout, bind, gets. cbn.
  destruct (cookies request !! "session_id") as [sid|]; cbn; [|done].
  destruct sid as [|c sid]; cbn; [done|]. by case_bool_decide.
Qed.

Lemma auth_status_state (request : Request) (st : State) :
  state_after (auth_status request st) = st.
Proof.
  unfold auth_status, bind. rewrite is_teacher_authenticated_run.
  by destruct (truthy _).
Qed.

Lemma handle_roster_change (c : Call) (request : Request) (st : State) :
  roster_change (activities st) (activities (state_after (handle c request st))).
Proof.
  destruct c as [env urandom username password| | | |name email|name email]; cbn [handle].
  - apply roster_same, login_activities.
  - apply roster_same, logout_activities.
  - apply roster_same. by rewrite auth_status_state.
  - by apply roster_same.
  - apply signup_roster_change.
  - apply unregister_roster_change.
Qed.

Lemma filter_eq_absent (x : string) (l : list string) :
  x ∉ l -> filter (fun y => y = x) l = [].
Proof.
  induction l as [|y l IH]; [done|]. intros Hn.
  apply not_elem_of_cons in Hn as [Hne Hn].
  rewrite filter_cons_False by congruence. by apply IH.
Qed.

Lemma roster_change_no_duplicates (acts acts' : gmap string Activity) :
  roster_change acts acts' ->
  (forall name a, acts !! name = Some a -> NoDup (participants a)) ->
  forall name a, acts' !! name = Some a -> NoDup (participants a).
Proof.
  intros [->|n e a0 Ha0 Hn ->|n e a0 ps Ha0 Hps ->] Hinv name a; [by apply Hinv| |].
  - destruct (decide (n = name)) as [->|Hne].
    + rewrite lookup_insert_eq. intros [= <-]. cbn.
      apply NoDup_app. split; [by eapply Hinv|]. split; [|apply NoDup_singleton].
      intros y Hy Hy'. apply list_elem_of_singleton in Hy'. by subst y.
    + rewrite lookup_insert_ne by done. apply Hinv.
  - destruct (decide (n = name)) as [->|Hne].
    + rewrite lookup_insert_eq. intros [= <-]. cbn.
      by apply (list_remove_NoDup e (participants a0)); [eapply Hinv|].
    + rewrite lookup_insert_ne by done. apply Hinv.
Qed.

(** ** Uniqueness of emails *)

(** C5: for an activity whose list has no duplicates and an email that is
    not in it, an authenticated sign-up returns normally and leaves a list
    that holds the email exactly once and still has no duplicates; the same
    sign-up sent again raises Conflict and changes nothing; and no operation
    of the service takes a state in which every list is free of duplicates
    to one in which some list is not. *)
Theorem signup_keeps_emails_unique (st : State) (request : Request)
    (activity_name email : string) (a : Activity) :
  caller_authenticated request st = true ->
  activities st !! activity_name = Some a ->
  email ∉ participants a ->
  NoDup (participants a) ->
  let r := signup_for_activity request activity_name email st in
  (exists reply, outcome r = Val reply)
  /\ (exists a', activities (state_after r) !! activity_name = Some a'
                 /\ length (filter (fun x => x = email) (participants a')) = 1
                 /\ NoDup (participants a'))
  /\ signup_for_activity request activity_name email (state_after r)
     = (state_after r, Exc Conflict_signup)
  /\ (forall c request' st0,
        no_duplicates st0 -> no_duplicates (state_after (handle c request' st0))).
Proof.
  intros Hauth Ha Hn Hnd r. subst r. rewrite (signup_run _ _ _ st), Hauth, Ha.
  rewrite bool_decide_eq_false_2 by done. cbn [state_after outcome fst snd].
  split; [eauto|]. split; [|split].
  - exists (with_participants a (participants a ++ [email])). cbn.
    split; [apply lookup_insert_eq|]. split.
    + rewrite filter_app, filter_eq_absent by done.
      by rewrite filter_cons_True.
    + apply NoDup_app. split; [done|]. split; [|apply NoDup_singleton].
      intros y Hy Hy'. apply list_elem_of_singleton in Hy'. by subst y.
  - rewrite signup_run.
    rewrite (caller_authenticated_sessions request st) by done.
    rewrite Hauth.
    cbn. rewrite lookup_insert_eq. cbn.
    rewrite bool_decide_eq_true_2; [done|].
    apply elem_of_app. right. left.
  - intros c request' st0 Hinv.
    exact (roster_change_no_duplicates _ _ (handle_roster_change c request' st0) Hinv).
Qed.

Lemma signup_keeps_emails_unique_witness :
  signup_for_activity (with_session demo_token) "Chess Club" "new@mergington.edu"
    (state_after
       (signup_for_activity (with_session demo_token) "Chess Club"
          "new@mergington.edu" demo_state))
  = (state_after
       (signup_for_activity (with_session demo_token) "Chess Club"
          "new@mergington.edu" demo_state),
     Exc Conflict_signup).
Proof.
  apply (signup_keeps_emails_unique demo_state (with_session demo_token)
           "Chess Club" "new@mergington.edu" chess_club);
    [reflexivity | reflexivity | decide_by_computation | decide_by_computation].
Defined.

(** ** Sign-up followed by unregistering *)

(** C6: for an email that is not among the participants of a known
    activity, an authenticated sign-up followed by an authenticated
    unregister of the same email both return normally and put the
    participants list (indeed the whole state) back to what it was; a second
    unregister right after raises Conflict. *)
Theorem unregister_inverts_signup (st : State) (request1 request2 request3 : Request)
    (activity_name email : string) (a : Activity) :
  caller_authenticated request1 st = true ->
  caller_authenticated request2 st = true ->
  caller_authenticated request3 st = true ->
  activities st !! activity_name = Some a ->
  email ∉ participants a ->
  let r1 := signup_for_activity request1 activity_name email st in
  let r2 := unregister_from_activity request2 activity_name email (state_after r1) in
  let r3 := unregister_from_activity request3 activity_name email (state_after r2) in
  (exists reply, outcome r1 = Val reply)
  /\ (exists reply, outcome r2 = Val reply)
  /\ (exists a2, activities (state_after r2) !! activity_name = Some a2
                 /\ participants a2 = participants a)
  /\ state_after r2 = st
  /\ r3 = (st, Exc Conflict_unregister).
Proof.
  intros Hauth1 Hauth2 Hauth3 Ha Hn r1 r2 r3.
  assert (r1 = (set_participants activity_name a (participants a ++ [email]) st,
                Val (mkReply
                       (MessageBody
                          ("Signed up " +:+ email +:+ " for " +:+ activity_name))
                       NoCookieChange))) as Hr1.
  { subst r1. rewrite signup_run, Hauth1, Ha. by rewrite bool_decide_eq_false_2. }
  assert (r2 = (st,
                Val (mkReply
                       (MessageBody
                          ("Unregistered " +:+ email +:+ " from " +:+ activity_name))
                       NoCookieChange))) as Hr2.
  { subst r2. rewrite Hr1, unregister_run. cbn [state_after fst].
    rewrite (caller_authenticated_sessions request2 st) by done.
    rewrite Hauth2.
    cbn. rewrite lookup_insert_eq. cbn.
    rewrite bool_decide_eq_true_2 by (apply elem_of_app; right; left).
    rewrite list_remove_snoc by done.
    by rewrite set_participants_undo. }
  assert (r3 = (st, Exc Conflict_unregister)) as Hr3.
  { subst r3. rewrite Hr2, unregister_run. cbn [state_after fst].
    rewrite Hauth3, Ha. by rewrite bool_decide_eq_false_2. }
  rewrite Hr1, Hr2, Hr3. cbn. repeat split; eauto.
Qed.

Lemma unregister_inverts_signup_witness :
  state_after
    (unregister_from_activity (with_session demo_token) "Chess Club"
       "new@mergington.edu"
       (state_after
          (signup_for_activity (with_session demo_token) "Chess Club"
             "new@mergington.edu" demo_state)))
  = demo_state.
Proof.
  apply (unregister_inverts_signup demo_state (with_session demo_token)
           (with_session demo_token) (with_session demo_token)
           "Chess Club" "new@mergington.edu" chess_club);
    [reflexivity | reflexivity | reflexivity | reflexivity
    | decide_by_computation].
Defined.

(** ** Credentials *)

Lemma authenticate_loop_iff (teachers : list Teacher) (username password : string) :
  authenticate_loop teachers username password = true <->
  exists t, t ∈ teachers /\ teacher_username t = username
            /\ teacher_password t = password.
Proof.
  induction teachers as [|t teachers IH]; cbn.
  - split; [discriminate|]. intros (t & Hin & _). by apply elem_of_nil in Hin.
  - destruct (bool_decide (teacher_username t = username)
              && bool_decide (teacher_password t = password)) eqn:Hm.
    + apply andb_true_iff in Hm as [Hu Hp].
      apply bool_decide_eq_true in Hu, Hp.
      split; [|done]. intros _. exists t. split; [left|done].
    + rewrite IH. split.
      * intros (t' & Hin & Ht'). exists t'. split; [by right|done].
      * intros (t' & Hin & Hu & Hp). apply elem_of_cons in Hin as [->|Hin].
        -- rewrite !bool_decide_eq_true_2 in Hm by done. discriminate.
        -- by exists t'.
Qed.

(** C7: [authenticate_teacher] returns [True] exactly when some record of
    the loaded teacher list has the submitted username and the submitted
    password, both compared as plain strings; with an empty teacher list,
    and so when [teachers.json] is absent, it returns [False] for every
    input. *)
Theorem authenticate_teacher_exact_match (env : Env) (username password : string) :
  (authenticate_teacher env username password = true <->
   exists t, t ∈ load_teachers env /\ teacher_username t = username
             /\ teacher_password t = password)
  /\ (load_teachers env = [] ->
      authenticate_teacher env username password = false)
  /\ (teachers_json env = None ->
      load_teachers env = []
      /\ authenticate_teacher env username password = false).
Proof.
  unfold authenticate_teacher. split; [apply authenticate_loop_iff|]. split.
  - by intros ->.
  - unfold load_teachers. by intros ->.
Qed.

Lemma authenticate_teacher_exact_match_witness :
  authenticate_teacher mergington_teachers "jchen" "maths4all" = true
  /\ authenticate_teacher (mkEnv (Some [])) "jchen" "maths4all" = false
  /\ authenticate_teacher no_teachers_file "mrodriguez" "pass123" = false.
Proof.
  split; [|split].
  - apply (authenticate_teacher_exact_match mergington_teachers "jchen" "maths4all").
    exists (mkTeacher "jchen" "maths4all").
    split; [right; left | split; reflexivity].
  - apply (proj1 (proj2 (authenticate_teacher_exact_match (mkEnv (Some []))
                           "jchen" "maths4all"))).
    reflexivity.
  - apply (proj2 (proj2 (authenticate_teacher_exact_match no_teachers_file
                           "mrodriguez" "pass123"))).
    reflexivity.
Defined.

(** A username with the wrong password, or a password with the wrong
    username, does not authenticate. *)
Example authenticate_teacher_mismatch :
  authenticate_teacher mergington_teachers "mrodriguez" "maths4all" = false
  /\ authenticate_teacher mergington_teachers "jchen" "Maths4all" = false
  /\ authenticate_teacher mergington_teachers "nonexistent" "x" = false.
Proof. repeat split. Qed.

(** ** The frame of the operations *)

Lemma roster_change_dom (acts acts' : gmap string Activity) :
  roster_change acts acts' -> dom acts' = dom acts.
Proof.
  intros [->|n e a Ha _ ->|n e a ps Ha _ ->]; [done| |];
    by apply dom_insert_lookup_L.
Qed.

Lemma roster_change_metadata (acts acts' : gmap string Activity) name a :
  roster_change acts acts' ->
  acts !! name = Some a ->
  exists a', acts' !! name = Some a'
             /\ description a' = description a
             /\ schedule a' = schedule a
             /\ max_participants a' = max_participants a.
Proof.
  intros [->|n e a0 Ha0 _ ->|n e a0 ps Ha0 _ ->] Ha; [by exists a| |].
  - destruct (decide (n = name)) as [->|Hne].
    + rewrite lookup_insert_eq. eexists. split; [done|].
      rewrite Ha in Ha0. by injection Ha0 as <-.
    + rewrite lookup_insert_ne by done. by exists a.
  - destruct (decide (n = name)) as [->|Hne].
    + rewrite lookup_insert_eq. eexists. split; [done|].
      rewrite Ha in Ha0. by injection Ha0 as <-.
    + rewrite lookup_insert_ne by done. by exists a.
Qed.

Lemma signup_frame (request : Request) (activity_name email : string) (st : State) :
  let st' := state_after (signup_for_activity request activity_name email st) in
  active_sessions st' = active_sessions st
  /\ forall other, other <> activity_name ->
                   activities st' !! other = activities st !! other.
Proof.
  intros st'. subst st'. rewrite signup_run.
  destruct (caller_authenticated request st); [|done].
  destruct (activities st !! activity_name) as [a|]; [|done].
  case_bool_decide; [done|]. cbn. split; [done|].
  intros other Hne. by rewrite lookup_insert_ne.
Qed.

Lemma unregister_frame (request : Request) (activity_name email : string)
    (st : State) :
  let st' :=
    state_after (unregister_from_activity request activity_name email st) in
  active_sessions st' = active_sessions st
  /\ forall other, other <> activity_name ->
                   activities st' !! other = activities st !! other.
Proof.
  intros st'. subst st'. rewrite unregister_run.
  destruct (caller_authenticated request st); [|done].
  destruct (activities st !! activity_name) as [a|]; [|done].
  case_bool_decide; [|done].
  destruct (list_remove email (participants a)); [|done]. cbn. split; [done|].
  intros other Hne. by rewrite lookup_insert_ne.
Qed.

(** C9: every operation (login, logout, auth/status, list, sign-up,
    unregister) keeps the set of activity names and, for each activity, its
    description, schedule and [max_participants]; a sign-up or unregister on
    one activity, successful or not, leaves the session store and the entry
    of every other activity (its participants included) as they were. *)
Theorem operations_frame (c : Call) (request : Request) (st : State) :
  let st' := state_after (handle c request st) in
  dom (activities st') = dom (activities st)
  /\ (forall name a, activities st !! name = Some a ->
        exists a', activities st' !! name = Some a'
                   /\ description a' = description a
                   /\ schedule a' = schedule a
                   /\ max_participants a' = max_participants a)
  /\ (forall activity_name email,
        c = Signup activity_name email \/ c = Unregister activity_name email ->
        active_sessions st' = active_sessions st
        /\ forall other, other <> activity_name ->
                         activities st' !! other = activities st !! other).
Proof.
  intros st'. subst st'. split; [|split].
  - apply roster_change_dom, handle_roster_change.
  - intros name a. apply roster_change_metadata, handle_roster_change.
  - intros activity_name email [->| ->]; cbn [handle].
    + apply signup_frame.
    + apply unregister_frame.
Qed.

Lemma operations_frame_witness :
  (exists a',
     activities
       (state_after
          (handle (Signup "Chess Club" "new@mergington.edu")
             (with_session demo_token) demo_state)) !! "Chess Club" = Some a'
     /\ description a' = description chess_club
     /\ schedule a' = schedule chess_club
     /\ max_participants a' = max_participants chess_club)
  /\ (active_sessions
        (state_after
           (handle (Unregister "Chess Club" "daniel@mergington.edu")
              (with_session demo_token) demo_state))
      = active_sessions demo_state
      /\ forall other, other <> "Chess Club" ->
           activities
             (state_after
                (handle (Unregister "Chess Club" "daniel@mergington.edu")
                   (with_session demo_token) demo_state)) !! other
           = activities demo_state !! other).
Proof.
  split.
  - apply (proj1 (proj2 (operations_frame
                           (Signup "Chess Club" "new@mergington.edu")
                           (with_session demo_token) demo_state))).
    reflexivity.
  - apply (proj2 (proj2 (operations_frame
                           (Unregister "Chess Club" "daniel@mergington.edu")
                           (with_session demo_token) demo_state))
             "Chess Club" "daniel@mergington.edu").
    right. reflexivity.
Defined.

(** ** Sessions: login, logout, status *)

(** A session id is never the empty string: [str] of a UUID starts with a
    hexadecimal digit. *)
Lemma str_uuid_nonempty (int : N) : str_uuid int <> "".
Proof. unfold str_uuid. cbn [hex_digits substring append]. discriminate. Qed.

Lemma login_success (env : Env) (urandom : N) (username password : string)
    (st : State) :
  authenticate_teacher env username password = true ->
  login env urandom username password st
  = (mkState (<[str_uuid (uuid4 urandom) := username]> (active_sessions st))
       (activities st),
     Val (mkReply (AuthBody "Login successful" true)
            (SetCookie "session_id" (str_uuid (uuid4 urandom))))).
Proof. unfold login. by intros ->. Qed.

Lemma login_failure (env : Env) (urandom : N) (username password : string)
    (st : State) :
  authenticate_teacher env username password = false ->
  login env urandom username password st = (st, Exc InvalidCredentials).
Proof. unfold login. by intros ->. Qed.

(** [logout] always returns its message and asks for the cookie to be
    deleted. *)
Lemma logout_never_fails (request : Request) (st : State) :
  outcome (logout request st)
  = Val (mkReply (AuthBody "Logged out successfully" false)
           (DeleteCookie "session_id")).
Proof.
  unfold logout, bind, gets. cbn.
  destruct (cookies request !! "session_id") as [sid|]; cbn; [|done].
  destruct sid as [|c sid]; cbn; [done|]. by destruct (bool_decide _).
Qed.

(** With a non-empty session cookie the entry of that token is gone
    afterwards (and nothing else changed). *)
Lemma logout_deletes (request : Request) (sid : string) (st : State) :
  cookies request !! "session_id" = Some sid ->
  sid <> "" ->
  state_after (logout request st)
  = mkState (delete sid (active_sessions st)) (activities st).
Proof.
  intros Hc Hne. unfold logout, bind, gets. cbn. rewrite Hc. cbn.
  destruct sid as [|c sid]; [done|]. cbn. case_bool_decide as Hin; cbn; [done|].
  apply not_elem_of_dom in Hin. rewrite delete_id by done. by destruct st.
Qed.

(** Without a session cookie, or with an empty one, nothing changes. *)
Lemma logout_without_token (request : Request) (st : State) :
  cookies request !! "session_id" = None
  \/ cookies request !! "session_id" = Some "" ->
  state_after (logout request st) = st.
Proof. intros [Hc|Hc]; unfold logout, bind, gets; cbn; by rewrite Hc. Qed.

Lemma logout_idempotent (request : Request) (st : State) :
  state_after (logout request (state_after (logout request st)))
  = state_after (logout request st).
Proof.
  destruct (cookies request !! "session_id") as [sid|] eqn:Hc.
  - destruct (decide (sid = "")) as [->|Hne].
    + rewrite !logout_without_token; auto.
    + rewrite !(logout_deletes request sid) by done. cbn.
      by rewrite delete_delete_eq.
  - rewrite !logout_without_token; auto.
Qed.

(** The token that a successful login handed out is no key of the store
    after a logout that carries it. *)
Lemma logout_after_login (env : Env) (urandom : N) (username password : string)
    (st : State) :
  authenticate_teacher env username password = true ->
  let sid := str_uuid (uuid4 urandom) in
  let st1 := state_after (login env urandom username password st) in
  let st2 := state_after (logout (with_session sid) st1) in
  sid ∈ dom (active_sessions st1) /\ sid ∉ dom (active_sessions st2).
Proof.
  intros Hok sid st1 st2. subst st1 st2. rewrite login_success by done.
  cbn [state_after fst]. split.
  - cbn. rewrite dom_insert_L. set_solver.
  - rewrite (logout_deletes _ sid);
      [|apply lookup_singleton_eq|apply str_uuid_nonempty].
    cbn. rewrite dom_delete_L. intros Hin.
    apply elem_of_difference in Hin as [_ Hn]. apply Hn. by apply elem_of_singleton.
Qed.

(** [auth_status] with a non-empty cookie that is no key of the store:
    [False] and no username. *)
Lemma auth_status_stale (request : Request) (sid : string) (st : State) :
  cookies request !! "session_id" = Some sid ->
  sid <> "" ->
  sid ∉ dom (active_sessions st) ->
  auth_status request st
  = (st, Val (mkReply (StatusBody (PyBool false) PyNone) NoCookieChange)).
Proof.
  intros Hc Hne Hout. unfold auth_status, bind.
  rewrite is_teacher_authenticated_run, Hc. cbn.
  destruct sid as [|c sid]; [done|]. cbn.
  by rewrite bool_decide_eq_false_2.
Qed.

(** [auth_status] with a cookie of a live session: [True] and the teacher
    of that session. *)
Lemma auth_status_live (request : Request) (sid username : string) (st : State) :
  cookies request !! "session_id" = Some sid ->
  sid <> "" ->
  active_sessions st !! sid = Some username ->
  auth_status request st
  = (st, Val (mkReply (StatusBody (PyBool true) (PyStr username)) NoCookieChange)).
Proof.
  intros Hc Hne Hin. unfold auth_status, bind.
  rewrite is_teacher_authenticated_run, Hc. cbn.
  destruct sid as [|c sid]; [done|]. cbn.
  rewrite bool_decide_eq_true_2 by (apply elem_of_dom; eauto).
  cbn. by rewrite Hin.
Qed.

(** [auth_status] without a session cookie: the helper returns the cookie
    lookup itself, [None], and that is what the body carries. *)
Lemma auth_status_without_cookie (request : Request) (st : State) :
  cookies request !! "session_id" = None ->
  auth_status request st
  = (st, Val (mkReply (StatusBody PyNone PyNone) NoCookieChange)).
Proof.
  intros Hc. unfold auth_status, bind.
  by rewrite is_teacher_authenticated_run, Hc.
Qed.

(** C8 (the request on which the code departs from it): the teacher of the
    scenario logs in on the seeded state and logs out with the cookie of
    that login.  The token was a key of the session store and is none
    afterwards, and [auth_status] with the stale cookie answers
    [authenticated: False], [username: None].  [auth_status] without any
    cookie answers [authenticated: None] (JSON [null]), not [False]: the
    value of [session_id and ...] is the missing cookie itself. *)
Theorem auth_status_after_logout :
  let st1 :=
    state_after (login mergington_teachers 2026 "mrodriguez" "pass123"
                   initial_state) in
  let st2 := state_after (logout (with_session demo_token) st1) in
  outcome (login mergington_teachers 2026 "mrodriguez" "pass123" initial_state)
    = Val (mkReply (AuthBody "Login successful" true)
             (SetCookie "session_id" demo_token))
  /\ active_sessions st1 !! demo_token = Some "mrodriguez"
  /\ active_sessions st2 !! demo_token = None
  /\ outcome (auth_status (with_session demo_token) st2)
     = Val (mkReply (StatusBody (PyBool false) PyNone) NoCookieChange)
  /\ outcome (auth_status no_cookie st2)
     = Val (mkReply (StatusBody PyNone PyNone) NoCookieChange)
  /\ PyNone <> PyBool false.
Proof.
  cbv zeta. rewrite login_success by reflexivity. fold demo_token.
  cbn [state_after outcome fst snd active_sessions].
  rewrite (logout_deletes _ demo_token);
    [|apply lookup_singleton_eq|apply str_uuid_nonempty].
  cbn [active_sessions].
  assert (delete demo_token (<[demo_token := "mrodriguez"]> (∅ : gmap string string))
            !! demo_token = None) as Hgone by apply lookup_delete_eq.
  split; [done|]. split; [apply lookup_insert_eq|]. split; [done|]. split.
  - rewrite (auth_status_stale _ demo_token);
      [done|apply lookup_singleton_eq|apply str_uuid_nonempty|].
    by apply not_elem_of_dom.
  - split; [|discriminate]. by rewrite auth_status_without_cookie.
Qed.

(** ** The empty session cookie *)

(** C10: a request whose session cookie is the empty string is never
    authenticated, in whatever state, also one whose session store has the
    empty string as a key: [is_teacher_authenticated] returns the empty
    string itself, which is falsy, without the membership test mattering,
    and both guarded handlers raise Unauthorized and leave the state. *)
Theorem empty_cookie_unauthorized (st : State) (request : Request)
    (activity_name email : string) :
  cookies request !! "session_id" = Some "" ->
  outcome (is_teacher_authenticated request st) = Val (PyStr "")
  /\ truthy (PyStr "") = false
  /\ (forall membership, py_and (PyStr "") membership = PyStr "")
  /\ signup_for_activity request activity_name email st = (st, Exc Unauthorized)
  /\ unregister_from_activity request activity_name email st
     = (st, Exc Unauthorized).
Proof.
  intros Hc.
  assert (caller_authenticated request st = false) as Hauth.
  { unfold caller_authenticated. by rewrite is_teacher_authenticated_run, Hc. }
  rewrite signup_run, unregister_run, Hauth, is_teacher_authenticated_run, Hc.
  done.
Qed.

Lemma empty_cookie_unauthorized_witness :
  "" ∈ dom (active_sessions ghost_state)
  /\ outcome (is_teacher_authenticated (with_session "") ghost_state)
     = Val (PyStr "")
  /\ truthy (PyStr "") = false
  /\ (forall membership, py_and (PyStr "") membership = PyStr "")
  /\ signup_for_activity (with_session "") "Chess Club" "new@mergington.edu"
       ghost_state
     = (ghost_state, Exc Unauthorized)
  /\ unregister_from_activity (with_session "") "Chess Club"
       "daniel@mergington.edu" ghost_state
     = (ghost_state, Exc Unauthorized).
Proof.
  split; [decide_by_computation|].
  destruct (empty_cookie_unauthorized ghost_state (with_session "") "Chess Club"
              "new@mergington.edu" eq_refl) as (H1 & H2 & H3 & H4 & _).
  destruct (empty_cookie_unauthorized ghost_state (with_session "") "Chess Club"
              "daniel@mergington.edu" eq_refl) as (_ & _ & _ & _ & H5).
  exact (conj H1 (conj H2 (conj H3 (conj H4 H5)))).
Defined.

(** ** Reachable states *)

Lemma handle_sessions (c : Call) (request : Request) (st : State) :
  forall sid, sid ∈ dom (active_sessions (state_after (handle c request st))) ->
              sid ∈ dom (active_sessions st) \/ exists int, sid = str_uuid int.
Proof.
  intros sid.
  destruct c as [env urandom username password| | | |name email|name email];
    cbn [handle].
  - destruct (authenticate_teacher env username password) eqn:Hok.
    + rewrite login_success by done. cbn. rewrite dom_insert_L.
      intros [Hs|Hs]%elem_of_union; [right|by left].
      apply elem_of_singleton in Hs. eauto.
    + rewrite login_failure by done. by left.
  - destruct (cookies request !! "session_id") as [tok|] eqn:Hc.
    + destruct (decide (tok = "")) as [->|Hne].
      * rewrite logout_without_token by auto. by left.
      * rewrite (logout_deletes request tok) by done. cbn. rewrite dom_delete_L.
        intros [Hs _]%elem_of_difference. by left.
    + rewrite logout_without_token by auto. by left.
  - rewrite auth_status_state. by left.
  - by left.
  - destruct (signup_frame request name email st) as [-> _]. by left.
  - destruct (unregister_frame request name email st) as [-> _]. by left.
Qed.

(** In a run every session id is one that [login] made, so none is empty. *)
Lemma reachable_sessions_nonempty (st : State) :
  reachable st -> "" ∉ dom (active_sessions st).
Proof.
  induction 1 as [|c request st _ IH]; [apply not_elem_of_empty|].
  intros Hin. apply handle_sessions in Hin as [Hin|[int Hint]]; [done|].
  by apply (str_uuid_nonempty int).
Qed.

(** In a run, the guard of the two handlers is the membership of the
    cookie's token in the session store. *)
Lemma reachable_caller_authenticated (st : State) (request : Request) :
  reachable st ->
  caller_authenticated request st = true <->
  exists sid, cookies request !! "session_id" = Some sid
              /\ sid ∈ dom (active_sessions st).
Proof.
  intros Hreach. rewrite caller_authenticated_iff. split.
  - intros (sid & Hc & _ & Hin). eauto.
  - intros (sid & Hc & Hin). exists sid. repeat split; [done| |done].
    intros ->. by apply (reachable_sessions_nonempty st).
Qed.

(** ** Login *)


(** X2: after a login that returned normally, the cookie it set is a key of
    the session store bound to the submitted username, a request with that
    cookie passes the guard of the protected handlers, and [auth_status]
    with it answers [authenticated: True] and that username. *)
Theorem login_then_status (env : Env) (urandom : N) (username password : string)
    (st : State) (reply : Reply) :
  outcome (login env urandom username password st) = Val reply ->
  let st1 := state_after (login env urandom username password st) in
  exists sid,
    reply = mkReply (AuthBody "Login successful" true) (SetCookie "session_id" sid)
    /\ sid <> ""
    /\ active_sessions st1 !! sid = Some username
    /\ caller_authenticated (with_session sid) st1 = true
    /\ auth_status (with_session sid) st1
       = (st1, Val (mkReply (StatusBody (PyBool true) (PyStr username))
                      NoCookieChange)).
Proof.
  destruct (authenticate_teacher env username password) eqn:Hok.
  - rewrite login_success by done. cbn [outcome state_after fst snd].
    intros [= <-]. exists (str_uuid (uuid4 urandom)).
    assert (cookies (with_session (str_uuid (uuid4 urandom))) !! "session_id"
            = Some (str_uuid (uuid4 urandom))) as Hc by apply lookup_singleton_eq.
    split; [done|]. split; [apply str_uuid_nonempty|].
    split; [apply lookup_insert_eq|]. split.
    + apply caller_authenticated_iff. eexists. split; [exact Hc|].
      split; [apply str_uuid_nonempty|]. cbn. rewrite dom_insert_L.
      apply elem_of_union_l. by apply elem_of_singleton.
    + apply (auth_status_live _ (str_uuid (uuid4 urandom)));
        [exact Hc|apply str_uuid_nonempty|apply lookup_insert_eq].
  - rewrite login_failure by done. discriminate.
Qed.

Lemma login_then_status_witness :
  exists sid,
    active_sessions
      (state_after (login mergington_teachers 7 "jchen" "maths4all" initial_state))
      !! sid = Some "jchen"
    /\ auth_status (with_session sid)
         (state_after (login mergington_teachers 7 "jchen" "maths4all" initial_state))
       = (state_after (login mergington_teachers 7 "jchen" "maths4all" initial_state),
          Val (mkReply (StatusBody (PyBool true) (PyStr "jchen")) NoCookieChange)).
Proof.
  destruct (login_then_status mergington_teachers 7 "jchen" "maths4all"
              initial_state
              (mkReply (AuthBody "Login successful" true)
                 (SetCookie "session_id" (str_uuid (uuid4 7))))
              eq_refl)
    as (sid & _ & _ & Hs & _ & Hstatus).
  exists sid. exact (conj Hs Hstatus).
Defined.



(** X4: [login] never touches the activities and keeps every session other
    than the one of the token it hands out; when it returns normally the
    keys of the session store are the old ones and that token. *)
Theorem login_frame (env : Env) (urandom : N) (username password : string)
    (st : State) :
  let st1 := state_after (login env urandom username password st) in
  activities st1 = activities st
  /\ (forall sid, sid <> str_uuid (uuid4 urandom) ->
                  active_sessions st1 !! sid = active_sessions st !! sid)
  /\ (forall reply, outcome (login env urandom username password st) = Val reply ->
        dom (active_sessions st1)
        = {[str_uuid (uuid4 urandom)]} ∪ dom (active_sessions st)).
Proof.
  intros st1. subst st1.
  destruct (authenticate_teacher env username password) eqn:Hok.
  - rewrite login_success by done. cbn. split; [done|]. split.
    + intros sid Hne. by rewrite lookup_insert_ne.
    + intros _ _. apply dom_insert_L.
  - rewrite login_failure by done. cbn. split; [done|]. split; [done|].
    discriminate.
Qed.

(** ** Logout and the life of a session *)

(** X5: [logout] never raises and always answers with its message and the
    deletion of the cookie; it leaves the activities and every session other
    than the one of the request's cookie; a non-empty cookie is no key of
    the store afterwards; without a cookie, or with an empty one, the state
    is the one before; and a second [logout] with the same request changes
    nothing more. *)
Theorem logout_ends_only_the_callers_session (request : Request) (st : State) :
  let st' := state_after (logout request st) in
  outcome (logout request st)
    = Val (mkReply (AuthBody "Logged out successfully" false)
             (DeleteCookie "session_id"))
  /\ activities st' = activities st
  /\ (forall sid, cookies request !! "session_id" <> Some sid ->
                  active_sessions st' !! sid = active_sessions st !! sid)
  /\ (forall sid, cookies request !! "session_id" = Some sid -> sid <> "" ->
                  active_sessions st' !! sid = None)
  /\ (cookies request !! "session_id" = None
      \/ cookies request !! "session_id" = Some "" -> st' = st)
  /\ state_after (logout request st') = st'.
Proof.
  intros st'. subst st'.
  split; [apply logout_never_fails|]. split; [apply logout_activities|].
  split; [|split; [|split; [apply logout_without_token|apply logout_idempotent]]].
  - intros sid Hother.
    destruct (cookies request !! "session_id") as [tok|] eqn:Hc.
    + destruct (decide (tok = "")) as [->|Hne].
      * rewrite logout_without_token; auto.
      * rewrite (logout_deletes request tok) by done. cbn.
        apply lookup_delete_ne. congruence.
    + rewrite logout_without_token; auto.
  - intros sid Hc Hne. rewrite (logout_deletes request sid) by done. cbn.
    apply lookup_delete_eq.
Qed.

Lemma logout_ends_only_the_callers_session_witness :
  active_sessions (state_after (logout (with_session demo_token) demo_state))
    !! demo_token = None
  /\ state_after (logout (with_session "") ghost_state) = ghost_state.
Proof.
  split.
  - apply (proj1 (proj2 (proj2 (proj2
             (logout_ends_only_the_callers_session (with_session demo_token)
                demo_state))))); [reflexivity|apply str_uuid_nonempty].
  - apply (proj1 (proj2 (proj2 (proj2 (proj2
             (logout_ends_only_the_callers_session (with_session "")
                ghost_state)))))).
    right. reflexivity.
Defined.

(** X6: sessions do not expire.  A session of the store survives every
    request except a logout that carries its token, and stays bound to the
    same username unless a login hands out that very token again. *)
Theorem session_persists (c : Call) (request : Request) (st : State)
    (sid username : string) :
  active_sessions st !! sid = Some username ->
  (c = Logout -> cookies request !! "session_id" <> Some sid) ->
  let st' := state_after (handle c request st) in
  sid ∈ dom (active_sessions st')
  /\ ((forall env urandom username' password,
         c = Login env urandom username' password ->
         str_uuid (uuid4 urandom) <> sid) ->
      active_sessions st' !! sid = Some username).
Proof.
  intros Hs Hlogout st'. subst st'.
  destruct c as [env urandom username' password| | | |name email|name email];
    cbn [handle].
  - destruct (authenticate_teacher env username' password) eqn:Hok.
    + rewrite login_success by done. cbn. split.
      * rewrite dom_insert_L. apply elem_of_union_r, elem_of_dom. eauto.
      * intros Hfresh. rewrite lookup_insert_ne; [done|]. by eapply Hfresh.
    + rewrite login_failure by done. cbn. split; [|done].
      apply elem_of_dom. eauto.
  - specialize (Hlogout eq_refl).
    destruct (cookies request !! "session_id") as [tok|] eqn:Hc.
    + destruct (decide (tok = "")) as [->|Hne].
      * rewrite logout_without_token by auto. split; [|done].
        apply elem_of_dom. eauto.
      * rewrite (logout_deletes request tok) by done. cbn.
        assert (delete tok (active_sessions st) !! sid = Some username) as Hkept
          by (rewrite lookup_delete_ne; [done|congruence]).
        split; [|done]. apply elem_of_dom. eauto.
    + rewrite logout_without_token by auto. split; [|done].
      apply elem_of_dom. eauto.
  - rewrite auth_status_state. split; [|done]. apply elem_of_dom. eauto.
  - cbn. split; [|done]. apply elem_of_dom. eauto.
  - destruct (signup_frame request name email st) as [-> _].
    split; [|done]. apply elem_of_dom. eauto.
  - destruct (unregister_frame request name email st) as [-> _].
    split; [|done]. apply elem_of_dom. eauto.
Qed.

Lemma session_persists_witness :
  demo_token
    ∈ dom (active_sessions
             (state_after (handle Logout (with_session "other") demo_state)))
  /\ demo_token
      ∈ dom (active_sessions
               (state_after
                  (handle (Login mergington_teachers 2026 "jchen" "maths4all")
                     no_cookie demo_state))).
Proof.
  split.
  - apply (session_persists Logout (with_session "other") demo_state demo_token
             "mrodriguez"); [reflexivity|].
    intros _ Heq. vm_compute in Heq. discriminate.
  - apply (session_persists (Login mergington_teachers 2026 "jchen" "maths4all")
             no_cookie demo_state demo_token "mrodriguez");
      [reflexivity|discriminate].
Defined.

(** ** Status *)


(** X7: [auth_status] never raises, never changes the state and never
    touches the cookie.  The [authenticated] field of its body is truthy
    exactly when the guard of the protected handlers lets the request
    through, and the [username] field is a name exactly when the request's
    cookie is non-empty and bound to that name in the session store; it is
    [None] in every other case. *)
Theorem auth_status_consistent (request : Request) (st : State) :
  exists authenticated username,
    auth_status request st
    = (st, Val (mkReply (StatusBody authenticated username) NoCookieChange))
    /\ truthy authenticated = caller_authenticated request st
    /\ (truthy authenticated = false -> username = PyNone)
    /\ (forall name,
          username = PyStr name <->
          exists sid, cookies request !! "session_id" = Some sid
                      /\ sid <> "" /\ active_sessions st !! sid = Some name).
Proof.
  unfold caller_authenticated, auth_status, bind.
  rewrite is_teacher_authenticated_run. cbn.
  destruct (cookies request !! "session_id") as [sid|] eqn:Hc; cbn.
  - destruct sid as [|ch sid]; cbn.
    + eexists _, _. split; [done|]. split; [done|]. split; [done|].
      intros name. split; [discriminate|]. intros (s & [= <-] & Hne & _). done.
    + case_bool_decide as Hin; cbn.
      * eexists _, _. split; [done|]. split; [done|]. split; [discriminate|].
        intros name. split.
        -- intros Hname. exists (String ch sid). split; [done|].
           split; [discriminate|].
           destruct (active_sessions st !! String ch sid); [|discriminate].
           by injection Hname as ->.
        -- intros (s & [= <-] & _ & ->). done.
      * eexists _, _. split; [done|]. split; [done|]. split; [done|].
        intros name. split; [discriminate|]. intros (s & [= <-] & _ & Hs).
        destruct Hin. apply elem_of_dom. eauto.
  - eexists _, _. split; [done|]. split; [done|]. split; [done|].
    intros name. split; [discriminate|]. intros (s & Hs & _). discriminate.
Qed.

(** ** Exceptions of the service *)



(** ** Invariants of a run *)

Lemma seed_no_duplicates : no_duplicates initial_state.
Proof.
  intros name a Ha.
  assert (map_Forall (fun _ a => NoDup (participants a)) seed_activities) as Hall
    by decide_by_computation.
  exact (Hall name a Ha).
Qed.

Lemma reachable_run (requests : list (Call * Request)) (st : State) :
  reachable st -> reachable (run requests st).
Proof.
  revert st. induction requests as [|[c request] rest IH]; intros st Hst; [done|].
  cbn [run]. by apply IH, reachable_step.
Qed.

(** X9: activities are never created or deleted, and nothing but their
    participants ever changes: in every state of a run the activity names
    are the nine seeded ones, and each activity has the description,
    schedule and [max_participants] of its seed. *)
Theorem reachable_activities_fixed (st : State) :
  reachable st ->
  dom (activities st) = dom seed_activities
  /\ forall name a, activities st !! name = Some a ->
       exists seed, seed_activities !! name = Some seed
                    /\ description a = description seed
                    /\ schedule a = schedule seed
                    /\ max_participants a = max_participants seed.
Proof.
  induction 1 as [|c request st _ [IHdom IHmeta]].
  - split; [done|]. intros name a Ha. by exists a.
  - pose proof (handle_roster_change c request st) as Hchange. split.
    + by rewrite (roster_change_dom _ _ Hchange).
    + intros name a' Ha'.
      assert (is_Some (activities st !! name)) as [a Ha].
      { apply elem_of_dom. rewrite <- (roster_change_dom _ _ Hchange).
        apply elem_of_dom. eauto. }
      destruct (roster_change_metadata _ _ name a Hchange Ha)
        as (a2 & Ha2 & Hd & Hs & Hm).
      rewrite Ha' in Ha2. injection Ha2 as <-.
      destruct (IHmeta name a Ha) as (seed & Hseed & Hd' & Hs' & Hm').
      exists seed. repeat split; congruence.
Qed.

(** The state after the teacher of the scenario logged in and signed a new
    student up for the chess club. *)
Lemma reachable_after_signup :
  reachable
    (run [(Login mergington_teachers 2026 "mrodriguez" "pass123", no_cookie);
          (Signup "Chess Club" "new@mergington.edu", with_session demo_token)]
       initial_state).
Proof. apply reachable_run, reachable_initial. Qed.

Lemma reachable_activities_fixed_witness :
  dom (activities
         (run [(Login mergington_teachers 2026 "mrodriguez" "pass123", no_cookie);
               (Signup "Chess Club" "new@mergington.edu", with_session demo_token)]
            initial_state))
  = dom seed_activities.
Proof.
  apply (reachable_activities_fixed _ reachable_after_signup).
Defined.

(** X10: in every state of a run, no participants list holds an email
    twice. *)
Theorem reachable_no_duplicates (st : State) :
  reachable st -> no_duplicates st.
Proof.
  induction 1 as [|c request st _ IH]; [apply seed_no_duplicates|].
  exact (roster_change_no_duplicates _ _ (handle_roster_change c request st) IH).
Qed.

Lemma reachable_no_duplicates_witness :
  no_duplicates
    (run [(Login mergington_teachers 2026 "mrodriguez" "pass123", no_cookie);
          (Signup "Chess Club" "new@mergington.edu", with_session demo_token)]
       initial_state).
Proof.
  apply (reachable_no_duplicates _ reachable_after_signup).
Defined.

(** X11: in a run, the guard of sign-up is exactly the membership of the
    cookie's token in the session store: [signup_for_activity] raises
    Unauthorized if and only if the request has no session cookie or its
    token is no key of [active_sessions]. *)
Theorem reachable_signup_unauthorized_iff (st : State) (request : Request)
    (activity_name email : string) :
  reachable st ->
  outcome (signup_for_activity request activity_name email st) = Exc Unauthorized
  <-> ~ exists sid, cookies request !! "session_id" = Some sid
                    /\ sid ∈ dom (active_sessions st).
Proof.
  intros Hreach. rewrite <- (reachable_caller_authenticated st request Hreach).
  rewrite signup_run. destruct (caller_authenticated request st).
  - split; [|done]. destruct (activities st !! activity_name) as [a|];
      [case_bool_decide|]; discriminate.
  - split; [discriminate|done].
Qed.

Lemma reachable_signup_unauthorized_iff_witness :
  outcome
    (signup_for_activity (with_session "stale") "Chess Club" "new@mergington.edu"
       (run [(Login mergington_teachers 2026 "mrodriguez" "pass123", no_cookie);
             (Signup "Chess Club" "new@mergington.edu", with_session demo_token)]
          initial_state))
  = Exc Unauthorized.
Proof.
  apply (reachable_signup_unauthorized_iff _ (with_session "stale") "Chess Club"
           "new@mergington.edu" reachable_after_signup).
  intros (sid & Hc & Hin). vm_compute in Hc. injection Hc as <-.
  revert Hin. decide_by_computation.
Defined.

(** ** Several sign-ups *)



(** X13: the capacity is no invariant of the service: the seeded state
    respects [max_participants] everywhere, and a run (one login, nine
    sign-ups for the Math Club) ends in a state that does not. *)
Theorem capacity_is_not_invariant :
  within_capacity initial_state
  /\ exists st, reachable st /\ ~ within_capacity st.
Proof.
  split.
  - intros name a Ha.
    assert (map_Forall
              (fun _ a => (Z.of_nat (length (participants a)) <= max_participants a)%Z)
              seed_activities) as Hall by decide_by_computation.
    exact (Hall name a Ha).
  - exists (run ((Login mergington_teachers 2026 "mrodriguez" "pass123", no_cookie)
                 :: signups (with_session demo_token) "Math Club"
                      ["s1@mergington.edu"; "s2@mergington.edu"; "s3@mergington.edu";
                       "s4@mergington.edu"; "s5@mergington.edu"; "s6@mergington.edu";
                       "s7@mergington.edu"; "s8@mergington.edu"; "s9@mergington.edu"])
              initial_state).
    split; [apply reachable_run, reachable_initial|].
    intros Hcap.
    pose proof (Hcap "Math Club"
                  (mkActivity
                     "Solve challenging problems and participate in math competitions"
                     "Tuesdays, 3:30 PM - 4:30 PM" 10
                     ["james@mergington.edu"; "benjamin@mergington.edu";
                      "s1@mergington.edu"; "s2@mergington.edu"; "s3@mergington.edu";
                      "s4@mergington.edu"; "s5@mergington.edu"; "s6@mergington.edu";
                      "s7@mergington.edu"; "s8@mergington.edu"; "s9@mergington.edu"])
                  ltac:(vm_compute; reflexivity)) as Hle.
    cbn in Hle. lia.
Qed.

(** ** Unregistering and signing up again *)

(** X14: unregistering a participant and signing the same email up again
    does not restore the list: the email moves to the end.  Both requests
    return normally, the new list is the old one without that entry followed
    by the email, and it is a permutation of the old list. *)
Theorem unregister_then_signup_moves_to_end (st : State)
    (request1 request2 : Request) (activity_name email : string) (a : Activity)
    (before after : list string) :
  caller_authenticated request1 st = true ->
  caller_authenticated request2 st = true ->
  activities st !! activity_name = Some a ->
  participants a = before ++ email :: after ->
  email ∉ before ->
  email ∉ after ->
  let r1 := unregister_from_activity request1 activity_name email st in
  let r2 := signup_for_activity request2 activity_name email (state_after r1) in
  (exists reply, outcome r1 = Val reply)
  /\ (exists reply, outcome r2 = Val reply)
  /\ activities (state_after r2) !! activity_name
     = Some (with_participants a (before ++ after ++ [email]))
  /\ before ++ after ++ [email] ≡ₚ participants a.
Proof.
  intros Hauth1 Hauth2 Ha Hps Hb Haf r1 r2. subst r1 r2.
  rewrite unregister_run, Hauth1, Ha.
  rewrite bool_decide_eq_true_2
    by (rewrite Hps; apply elem_of_app; right; left).
  rewrite Hps, list_remove_first by done. cbn [state_after outcome fst snd].
  rewrite signup_run.
  rewrite (caller_authenticated_sessions request2 st) by done.
  rewrite Hauth2. cbn [activities set_participants].
  rewrite lookup_insert_eq. cbn [participants with_participants].
  rewrite bool_decide_eq_false_2
    by (intros Hin; apply elem_of_app in Hin as [Hin|Hin]; done).
  cbn [state_after outcome fst snd activities set_participants].
  split; [eauto|]. split; [eauto|]. split.
  - rewrite lookup_insert_eq. cbn. by rewrite <- app_assoc.
  - apply Permutation_app_head. symmetry. apply Permutation_cons_append.
Qed.

Lemma unregister_then_signup_moves_to_end_witness :
  activities
    (state_after
       (signup_for_activity (with_session demo_token) "Chess Club"
          "michael@mergington.edu"
          (state_after
             (unregister_from_activity (with_session demo_token) "Chess Club"
                "michael@mergington.edu" demo_state)))) !! "Chess Club"
  = Some (with_participants chess_club
            ["daniel@mergington.edu"; "michael@mergington.edu"]).
Proof.
  apply (unregister_then_signup_moves_to_end demo_state (with_session demo_token)
           (with_session demo_token) "Chess Club" "michael@mergington.edu"
           chess_club [] ["daniel@mergington.edu"]);
    [reflexivity | reflexivity | reflexivity | reflexivity
    | decide_by_computation | decide_by_computation].
Defined.

(** ** Requests on different activities *)

Lemma State_eq (st st' : State) :
  active_sessions st = active_sessions st' ->
  activities st = activities st' ->
  st = st'.
Proof. destruct st, st'. cbn. by intros -> ->. Qed.

Lemma on_activity_frame (c : Call) (activity_name : string) (request : Request)
    (st : State) :
  on_activity c = Some activity_name ->
  active_sessions (state_after (handle c request st)) = active_sessions st
  /\ forall other, other <> activity_name ->
       activities (state_after (handle c request st)) !! other
       = activities st !! other.
Proof.
  destruct c as [env urandom username password| | | |name email|name email];
    try discriminate; intros [= ->]; cbn [handle].
  - apply signup_frame.
  - apply unregister_frame.
Qed.

(** What a sign-up or unregister does depends on the sessions and on the
    entry of its own activity only. *)
Lemma on_activity_local (c : Call) (activity_name : string) (request : Request)
    (st st2 : State) :
  on_activity c = Some activity_name ->
  active_sessions st2 = active_sessions st ->
  activities st2 !! activity_name = activities st !! activity_name ->
  outcome (handle c request st2) = outcome (handle c request st)
  /\ activities (state_after (handle c request st2)) !! activity_name
     = activities (state_after (handle c request st)) !! activity_name.
Proof.
  intros Hc Hsessions Hentry.
  pose proof (caller_authenticated_sessions request st st2 Hsessions) as Hauth.
  destruct c as [env urandom username password| | | |name email|name email];
    try discriminate; injection Hc as ->; cbn [handle].
  - rewrite !signup_run, Hauth, Hentry.
    destruct (caller_authenticated request st); [|by cbn].
    destruct (activities st !! activity_name) as [a|] eqn:Ha;
      [|cbn; split; congruence].
    case_bool_decide; [cbn; split; congruence|].
    cbn. by rewrite !lookup_insert_eq.
  - rewrite !unregister_run, Hauth, Hentry.
    destruct (caller_authenticated request st); [|by cbn].
    destruct (activities st !! activity_name) as [a|] eqn:Ha;
      [|cbn; split; congruence].
    case_bool_decide; [|cbn; split; congruence].
    destruct (list_remove email (participants a)); [|cbn; split; congruence].
    cbn. by rewrite !lookup_insert_eq.
Qed.

(** X15: sign-ups and unregistrations on two different activities do not
    interfere: each request has the same outcome whether the other one was
    handled before it or not, and the state after both is the same in either
    order. *)
Theorem requests_on_different_activities_commute (c1 c2 : Call)
    (request1 request2 : Request) (name1 name2 : string) (st : State) :
  on_activity c1 = Some name1 ->
  on_activity c2 = Some name2 ->
  name1 <> name2 ->
  outcome (handle c1 request1 (state_after (handle c2 request2 st)))
    = outcome (handle c1 request1 st)
  /\ outcome (handle c2 request2 (state_after (handle c1 request1 st)))
     = outcome (handle c2 request2 st)
  /\ state_after (handle c2 request2 (state_after (handle c1 request1 st)))
     = state_after (handle c1 request1 (state_after (handle c2 request2 st))).
Proof.
  intros H1 H2 Hne.
  destruct (on_activity_frame c1 name1 request1 st H1) as [Hs1 Ho1].
  destruct (on_activity_frame c2 name2 request2 st H2) as [Hs2 Ho2].
  destruct (on_activity_local c1 name1 request1 st
              (state_after (handle c2 request2 st)) H1 Hs2 (Ho2 name1 Hne))
    as [Hout1 Hent1].
  destruct (on_activity_local c2 name2 request2 st
              (state_after (handle c1 request1 st)) H2 Hs1
              (Ho1 name2 (not_eq_sym Hne)))
    as [Hout2 Hent2].
  split; [done|]. split; [done|].
  destruct (on_activity_frame c2 name2 request2
              (state_after (handle c1 request1 st)) H2) as [Hs21 Ho21].
  destruct (on_activity_frame c1 name1 request1
              (state_after (handle c2 request2 st)) H1) as [Hs12 Ho12].
  apply State_eq; [congruence|]. apply map_eq. intros k.
  destruct (decide (k = name1)) as [->|Hk1].
  - rewrite Ho21 by done. by rewrite Hent1.
  - destruct (decide (k = name2)) as [->|Hk2].
    + rewrite Ho12 by done. by rewrite Hent2.
    + by rewrite Ho21, Ho12, Ho1, Ho2.
Qed.

Lemma requests_on_different_activities_commute_witness :
  state_after
    (handle (Unregister "Math Club" "james@mergington.edu") (with_session demo_token)
       (state_after
          (handle (Signup "Chess Club" "new@mergington.edu")
             (with_session demo_token) demo_state)))
  = state_after
      (handle (Signup "Chess Club" "new@mergington.edu") (with_session demo_token)
         (state_after
            (handle (Unregister "Math Club" "james@mergington.edu")
               (with_session demo_token) demo_state))).
Proof.
  apply (requests_on_different_activities_commute
           (Signup "Chess Club" "new@mergington.edu")
           (Unregister "Math Club" "james@mergington.edu")
           (with_session demo_token) (with_session demo_token)
           "Chess Club" "Math Club" demo_state);
    [reflexivity | reflexivity | discriminate].
Defined.

(** ** Membership after a request *)

(** X16: when [signup_for_activity] returns normally the email is the last
    participant of the activity; when [unregister_from_activity] returns
    normally on a state without duplicates (every state of a run is one) the
    email is no participant of the activity any more. *)
Theorem membership_after_success (st : State) (request : Request)
    (activity_name email : string) :
  (forall reply,
     outcome (signup_for_activity request activity_name email st) = Val reply ->
     exists a', activities
                  (state_after (signup_for_activity request activity_name email st))
                  !! activity_name = Some a'
                /\ last (participants a') = Some email)
  /\ (no_duplicates st ->
      forall reply,
        outcome (unregister_from_activity request activity_name email st)
          = Val reply ->
        exists a', activities
                     (state_after
                        (unregister_from_activity request activity_name email st))
                     !! activity_name = Some a'
                   /\ email ∉ participants a').
Proof.
  rewrite signup_run, unregister_run. split.
  - intros reply. destruct (caller_authenticated request st); [|discriminate].
    destruct (activities st !! activity_name) as [a|]; [|discriminate].
    case_bool_decide; [discriminate|]. intros _. cbn.
    eexists. split; [apply lookup_insert_eq|]. cbn. apply last_snoc.
  - intros Hnd reply. destruct (caller_authenticated request st); [|discriminate].
    destruct (activities st !! activity_name) as [a|] eqn:Ha; [|discriminate].
    case_bool_decide; [|discriminate].
    destruct (list_remove email (participants a)) as [ps|] eqn:Hps; [|discriminate].
    intros _. cbn. eexists. split; [apply lookup_insert_eq|]. cbn.
    by apply (list_remove_NoDup email (participants a)); [eapply Hnd|].
Qed.

Lemma membership_after_success_witness :
  exists a',
    activities
      (state_after
         (unregister_from_activity (with_session demo_token) "Chess Club"
            "daniel@mergington.edu" demo_state)) !! "Chess Club" = Some a'
    /\ "daniel@mergington.edu" ∉ participants a'.
Proof.
  apply (proj2 (membership_after_success demo_state (with_session demo_token)
                  "Chess Club" "daniel@mergington.edu"))
    with (reply := mkReply
                     (MessageBody
                        "Unregistered daniel@mergington.edu from Chess Club")
                     NoCookieChange);
    [|reflexivity].
  intros name a Ha. exact (seed_no_duplicates name a Ha).
Defined.

(** The hypothesis of X16 is needed: on a list that holds the email twice,
    one unregister leaves the second occurrence. *)
Example unregister_leaves_a_duplicate :
  activities
    (state_after
       (unregister_from_activity (with_session demo_token) "Duo"
          "ann@mergington.edu"
          (mkState {[demo_token := "mrodriguez"]}
             {["Duo" := with_participants duo
                          ["ann@mergington.edu"; "bob@mergington.edu";
                           "ann@mergington.edu"]]}))) !! "Duo"
  = Some (with_participants duo ["bob@mergington.edu"; "ann@mergington.edu"]).
Proof. reflexivity. Qed.

(** ** Listing *)

(** X17: [get_activities] returns the whole [activities] dictionary and
    leaves the state; the listing after any one request has the names of the
    listing before it, and the two differ in the entry of at most one
    activity. *)
Theorem listing_after_request (c : Call) (request : Request) (st : State) :
  let st' := state_after (handle c request st) in
  get_activities st = (st, Val (mkReply (ActivitiesBody (activities st)) NoCookieChange))
  /\ exists acts',
       outcome (get_activities st')
         = Val (mkReply (ActivitiesBody acts') NoCookieChange)
       /\ dom acts' = dom (activities st)
       /\ exists name, forall other, other <> name ->
                         acts' !! other = activities st !! other.
Proof.
  intros st'. subst st'. split; [done|].
  exists (activities (state_after (handle c request st))). split; [done|].
  pose proof (handle_roster_change c request st) as Hchange.
  split; [by apply roster_change_dom|].
  destruct Hchange as [->|n e a _ _ ->|n e a ps _ _ ->].
  - by exists "".
  - exists n. intros other Hne. by rewrite lookup_insert_ne.
  - exists n. intros other Hne. by rewrite lookup_insert_ne.
Qed.

(** ** Credentials and the order of the teacher list *)



(** ** Clients without a session cookie *)

Lemma handle_without_token (c : Call) (request : Request) (st : State) :
  cookies request !! "session_id" = None
  \/ cookies request !! "session_id" = Some "" ->
  activities (state_after (handle c request st)) = activities st.
Proof.
  intros Hc.
  assert (caller_authenticated request st = false) as Hauth.
  { apply not_true_is_false. intros (sid & Hs & Hne & _)%caller_authenticated_iff.
    destruct Hc as [Hc|Hc]; congruence. }
  destruct c as [env urandom username password| | | |name email|name email];
    cbn [handle].
  - apply login_activities.
  - apply logout_activities.
  - by rewrite auth_status_state.
  - done.
  - by rewrite signup_run, Hauth.
  - by rewrite unregister_run, Hauth.
Qed.

(** X19: a client whose requests carry no session cookie (or an empty one)
    cannot change the roster, whatever it asks for and however often,
    logins included: after any sequence of such requests the [activities]
    dictionary is the one before. *)
Theorem requests_without_cookie_keep_roster (requests : list (Call * Request))
    (st : State) :
  Forall (fun cr => cookies (snd cr) !! "session_id" = None
                    \/ cookies (snd cr) !! "session_id" = Some "") requests ->
  activities (run requests st) = activities st.
Proof.
  revert st. induction requests as [|[c request] rest IH]; intros st Hall; [done|].
  apply Forall_cons in Hall as [Hc Hrest]. cbn [run].
  rewrite IH by done. by apply handle_without_token.
Qed.

Lemma requests_without_cookie_keep_roster_witness :
  activities
    (run [(Login mergington_teachers 7 "mrodriguez" "pass123", no_cookie);
          (Signup "Chess Club" "new@mergington.edu", no_cookie);
          (Unregister "Chess Club" "daniel@mergington.edu", with_session "")]
       ghost_state)
  = activities ghost_state.
Proof.
  apply (requests_without_cookie_keep_roster
           [(Login mergington_teachers 7 "mrodriguez" "pass123", no_cookie);
            (Signup "Chess Club" "new@mergington.edu", no_cookie);
            (Unregister "Chess Club" "daniel@mergington.edu", with_session "")]
           ghost_state).
  decide_by_computation.
Defined.
